(** * Refunding the contributors of a crowdloan

    A shallow embedding of [refund_crowdloan]
    (bittensor_cli/src/commands/crowd/refund.py) and the properties of its
    eligibility gate, its status classification, its batching estimate and
    its submit/confirm protocol.

    The command is one straight-line coroutine that talks to collaborators
    which live outside the file: the ledger client, the wallet, the console
    and a few helpers of the package.  It is embedded as a finite tree of
    collaborator calls ([Prog]); running the tree against an environment
    that answers the calls ([Env]) yields the list of calls made, in order,
    and the outcome of the command.  An [await] is a sequencing point. *)

From Stdlib Require Import ZArith String Ascii List Lia DecimalString.
From stdpp Require Import base option gmap strings.

Local Open Scope string_scope.
Local Open Scope Z_scope.

(** ** Text formatting *)

Module Fmt.

(** The line feed written [\n] in the source. *)
Definition nl : string := String (ascii_of_nat 10) EmptyString.

(** [f"{n}"] for a Python [int]: decimal digits, a leading [-] when negative. *)
Definition str (n : Z) : string := NilZero.string_of_int (Z.to_int n).

(** Walks the digits from the least significant one and puts a comma after
    every complete group of three that is followed by another digit. *)
Fixpoint group_rev (ds : list ascii) (seen : nat) : list ascii :=
  match ds with
  | [] => []
  | d :: rest =>
      match rest with
      | [] => [d]
      | _ :: _ =>
          if Nat.eqb seen 2 then d :: ","%char :: group_rev rest 0
          else d :: group_rev rest (S seen)
      end
  end.

(** [f"{n:,}"] for a Python [int]: the decimal digits in groups of three. *)
Definition str_comma (n : Z) : string :=
  let digits := list_ascii_of_string (str (Z.abs n)) in
  let grouped := string_of_list_ascii (rev (group_rev (rev digits) 0)) in
  if n <? 0 then "-" ++ grouped else grouped.

End Fmt.

(** ** Data *)

(** The fields of the ledger's crowdloan record that the command reads.
    Amounts are counted in the smallest unit of the currency. *)
Record CrowdloanData := {
  end_ : Z;                (* [end]: the block at which contributions close *)
  cap : Z;
  raised : Z;
  deposit : Z;
  contributors_count : Z;
  finalized : bool
}.

(** What [unlock_key] hands back. *)
Record UnlockStatus := {
  success : bool;
  message : string
}.

(** The composed call, the signed extrinsic and the receipt of a submission. *)
Record GenericCall := {
  call_module : string;
  call_function : string;
  call_params : list (string * Z)
}.

Record Wallet := { coldkey : string }.

Record Extrinsic := {
  ext_call : GenericCall;
  ext_keypair : string
}.

(** The receipt of the ledger client: the verdict of the ledger and the
    structured error, a dictionary from field names to texts that the
    command reads with [.get], or [None] when there is no error. *)
Record Response := {
  is_success : bool;
  error_message : option (gmap string string)
}.

(** A cell of the information table: a text, or an amount handed to the
    renderer as it is. *)
Inductive Cell :=
| Text (s : string)
| Amount (a : Z).

Definition Table := list (string * Cell).

(** [table.add_row(label, value)] appends at the bottom. *)
Definition add_row (t : Table) (label : string) (value : Cell) : Table :=
  (t ++ [(label, value)])%list.

(** ** The pure computations of the command *)

(** Lines 100-106: the status shown in the table. *)
Definition status_failed : string := "[red]Failed[/red] (Cap not reached)".
Definition status_ended : string := "[yellow]Ended but not finalized[/yellow]".
Definition status_active : string :=
  "[green]Active[/green] (Still accepting contributions)".

Definition status (crowdloan : CrowdloanData) (current_block : Z) : string :=
  if current_block >=? end_ crowdloan then
    if raised crowdloan <? cap crowdloan then status_failed
    else status_ended
  else status_active.

(** Line 110. *)
Definition refundable_contributors (contributors_count : Z) : Z :=
  Z.max 0 contributors_count.

(** Lines 110-115.  Python's [//] is floor division, as [Z.div] is. *)
Definition estimated_calls (contributors_count refund_limit : Z) : Z :=
  let refundable := refundable_contributors contributors_count in
  if refund_limit >? 0 then (refundable + refund_limit) / refund_limit
  else 0.

(** ** Collaborator calls *)

(** Every call that leaves the function, with its arguments.  The names are
    those of the source; [await_is_success] is [await response.is_success],
    [format_error_message] is the [__format__] of the receipt's error inside
    the f-string of line 172, and the two [console_status] calls are the
    entry and the exit of the [with console.status(...)] block. *)
Inductive Event :=
| get_single_crowdloan (crowdloan_id : Z)
| get_block_number
| print_error (text : string)
| blocks_to_duration (blocks : Z)
| show_crowdloan_details (crowdloan_id : Z) (wallet : Wallet) (verbose : bool)
    (crowdloan : CrowdloanData) (current_block : Z)
| get_constant (name : string)
| console_print (text : string)
| console_print_table (table : Table)
| Confirm_ask (question : string) (default : bool)
| unlock_key (wallet : Wallet)
| console_status_enter (text spinner : string)
| console_status_exit
| compose_call (module function : string) (params : list (string * Z))
| create_signed_extrinsic (call : GenericCall) (keypair : string)
| submit_extrinsic (extrinsic : Extrinsic)
    (wait_for_inclusion wait_for_finalization : bool)
| process_events (response : Response)
| await_is_success (response : Response)
| format_error_message (error : option (gmap string string))
| print_extrinsic_id (response : Response).

(** What each call hands back. *)
Definition Reply (e : Event) : Type :=
  match e with
  | get_single_crowdloan _ => option CrowdloanData
  | get_block_number => Z
  | blocks_to_duration _ => string
  | get_constant _ => Z
  | Confirm_ask _ _ => bool
  | unlock_key _ => UnlockStatus
  | compose_call _ _ _ => GenericCall
  | create_signed_extrinsic _ _ => Extrinsic
  | submit_extrinsic _ _ _ => Response
  | await_is_success _ => bool
  | format_error_message _ => string
  | print_error _ | show_crowdloan_details _ _ _ _ _ | console_print _
  | console_print_table _ | console_status_enter _ _ | console_status_exit
  | process_events _ | print_extrinsic_id _ => unit
  end.

(** The exceptions the body itself can raise. *)
Inductive PyExn :=
| AttributeError (what : string)
| TypeError (what : string).

(** A command: it returns, raises, or calls out and goes on with the reply. *)
Inductive Prog (A : Type) : Type :=
| Ret (a : A)
| Raise (exn : PyExn)
| Call (e : Event) (k : Reply e -> Prog A).

Arguments Ret {A} a.
Arguments Raise {A} exn.
Arguments Call {A} e k.

(** One call, handing back its reply. *)
Definition invoke (e : Event) : Prog (Reply e) := Call e Ret.

Fixpoint bind {A B : Type} (p : Prog A) (f : A -> Prog B) : Prog B :=
  match p with
  | Ret a => f a
  | Raise exn => Raise exn
  | Call e k => Call e (fun r => bind (k r) f)
  end.

Notation "x <- p ;; k" := (bind p (fun x => k))
  (at level 100, p at next level, right associativity).
Notation "p ;; k" := (bind p (fun _ => k))
  (at level 100, right associativity).

(** A statement guarded by an [if] that has no [else]. *)
Definition when (b : bool) (p : Prog unit) : Prog unit :=
  if b then p else Ret tt.

(** [await value] where [value] is a [str]: a [str] is not awaitable, and
    the [await] raises instead of handing the text back. *)
Definition await_str (value : string) : Prog string :=
  Raise (TypeError "object str can't be used in 'await' expression").

(** The answers of the collaborators during one invocation. *)
Record Env := {
  ledger_crowdloan : Z -> option CrowdloanData;
  ledger_block : Z;
  ledger_constant : string -> Z;
  duration_text : Z -> string;
  confirm_answer : string -> bool -> bool;
  unlock_result : Wallet -> UnlockStatus;
  ledger_receipt : Extrinsic -> bool -> bool -> Response;
  error_text : option (gmap string string) -> string
}.

Definition answer (env : Env) (e : Event) : Reply e :=
  match e with
  | get_single_crowdloan crowdloan_id => ledger_crowdloan env crowdloan_id
  | get_block_number => ledger_block env
  | blocks_to_duration blocks => duration_text env blocks
  | get_constant name => ledger_constant env name
  | Confirm_ask question default => confirm_answer env question default
  | unlock_key wallet => unlock_result env wallet
  | compose_call module function params =>
      {| call_module := module; call_function := function;
         call_params := params |}
  | create_signed_extrinsic call keypair =>
      {| ext_call := call; ext_keypair := keypair |}
  | submit_extrinsic extrinsic wait_for_inclusion wait_for_finalization =>
      ledger_receipt env extrinsic wait_for_inclusion wait_for_finalization
  | await_is_success response => is_success response
  | format_error_message error => error_text env error
  | print_error _ | show_crowdloan_details _ _ _ _ _ | console_print _
  | console_print_table _ | console_status_enter _ _ | console_status_exit
  | process_events _ | print_extrinsic_id _ => tt
  end.

(** How an invocation ends. *)
Inductive Outcome (A : Type) : Type :=
| Returned (a : A)
| Raised (exn : PyExn).

Arguments Returned {A} a.
Arguments Raised {A} exn.

(** Runs a command: the calls it made, oldest first, and how it ended. *)
Fixpoint run {A : Type} (env : Env) (p : Prog A) : list Event * Outcome A :=
  match p with
  | Ret a => ([], Returned a)
  | Raise exn => ([], Raised exn)
  | Call e k =>
      let '(calls, outcome) := run env (k (answer env e)) in
      (e :: calls, outcome)
  end.

Definition trace {A : Type} (env : Env) (p : Prog A) : list Event :=
  fst (run env p).

Definition result {A : Type} (env : Env) (p : Prog A) : Outcome A :=
  snd (run env p).

(** ** The command *)

(** The question of line 133. *)
Definition proceed_question (crowdloan_id : Z) : string :=
  Fmt.nl ++ "[bold]Proceed with refunding contributors of Crowdloan #"
  ++ Fmt.str crowdloan_id ++ "?[/bold]".

(** [refund_crowdloan], lines 20-180.  The [subtensor] argument is the
    ledger behind the calls.  A [return] inside an [if] ends the command
    there: what follows the [if] in the source is the [else] branch here. *)
Definition refund_crowdloan (wallet : Wallet) (crowdloan_id : Z)
    (wait_for_inclusion wait_for_finalization prompt : bool)
    : Prog (bool * string) :=
  (* lines 48-51: the two reads are gathered; the snapshot is asked first *)
  crowdloan <- invoke (get_single_crowdloan crowdloan_id) ;;
  current_block <- invoke get_block_number ;;
  (* line 53: [not crowdloan] holds for [None] only *)
  match crowdloan with
  | None =>
      invoke (print_error ("[red]Crowdloan #" ++ Fmt.str crowdloan_id
                           ++ " not found.[/red]")) ;;
      Ret (false, "Crowdloan #" ++ Fmt.str crowdloan_id ++ " not found.")
  | Some crowdloan =>
  if finalized crowdloan then
    invoke (print_error ("[red]Crowdloan #" ++ Fmt.str crowdloan_id
                         ++ " is already finalized. "
                         ++ "Finalized crowdloans cannot be refunded.[/red]")) ;;
    Ret (false, "Crowdloan #" ++ Fmt.str crowdloan_id
                ++ " is already finalized.")
  else
  if end_ crowdloan >? current_block then
    remaining <- invoke (blocks_to_duration (end_ crowdloan - current_block)) ;;
    invoke (print_error ("[red]Crowdloan #" ++ Fmt.str crowdloan_id
                         ++ " is not yet ended. "
                         ++ "End block: [cyan]"
                         ++ Fmt.str_comma (end_ crowdloan)
                         ++ "[/cyan] ([dim]" ++ remaining
                         ++ " remaining[/dim])[/red]")) ;;
    Ret (false, "Crowdloan #" ++ Fmt.str crowdloan_id ++ " is not yet ended.")
  else
  invoke (show_crowdloan_details crowdloan_id wallet false crowdloan
            current_block) ;;
  refund_limit <- invoke (get_constant "RefundContributorsLimit") ;;
  invoke (console_print
            (Fmt.nl ++ "[bold cyan]Crowdloan Refund Information[/bold cyan]"
             ++ Fmt.nl)) ;;
  let info_table : Table := [] in
  let info_table :=
    add_row info_table "Crowdloan ID" (Text ("#" ++ Fmt.str crowdloan_id)) in
  let info_table :=
    add_row info_table "Total Contributors"
      (Text (Fmt.str_comma (contributors_count crowdloan))) in
  let info_table :=
    add_row info_table "Refund Limit (per call)"
      (Text (Fmt.str_comma refund_limit ++ " contributors")) in
  let info_table :=
    add_row info_table "Amount to Refund"
      (Amount (raised crowdloan - deposit crowdloan)) in
  let info_table :=
    add_row info_table "Status" (Text (status crowdloan current_block)) in
  let estimated_calls :=
    estimated_calls (contributors_count crowdloan) refund_limit in
  let info_table :=
    if estimated_calls >? 1 then
      add_row info_table "Estimated Calls Needed"
        (Text ("[yellow]~" ++ Fmt.str estimated_calls
               ++ "[/yellow] (due to contributor limit)"))
    else info_table in
  invoke (console_print_table info_table) ;;
  when (estimated_calls >? 1)
    (invoke (console_print
       (Fmt.nl ++ "[yellow]Note:[/yellow] Due to the "
        ++ "[cyan]Refund Contributors Limit[/cyan] of "
        ++ Fmt.str_comma refund_limit ++ " contributors per call," ++ Fmt.nl
        ++ "  you may need to execute this command [yellow]"
        ++ Fmt.str estimated_calls ++ " times[/yellow] "
        ++ "to refund all contributors." ++ Fmt.nl
        ++ "  Each call will refund up to " ++ Fmt.str_comma refund_limit
        ++ " contributors until all are processed." ++ Fmt.nl))) ;;
  (* line 132: [prompt and not Confirm.ask(...)] asks only when [prompt] *)
  declined <-
    (if prompt then
       accepted <- invoke (Confirm_ask (proceed_question crowdloan_id)
                             false) ;;
       Ret (negb accepted)
     else Ret false) ;;
  if declined then
    invoke (console_print "[yellow]Refund cancelled.[/yellow]") ;;
    Ret (false, "Refund cancelled by user.")
  else
  unlock_status <- invoke (unlock_key wallet) ;;
  if negb (success unlock_status) then
    invoke (print_error ("[red]" ++ message unlock_status ++ "[/red]")) ;;
    Ret (false, message unlock_status)
  else
  invoke (console_status_enter ":satellite: Submitting refund transaction..."
            "aesthetic") ;;
  call <- invoke (compose_call "Crowdloan" "refund"
                    [("crowdloan_id", crowdloan_id)]) ;;
  extrinsic <- invoke (create_signed_extrinsic call (coldkey wallet)) ;;
  response <- invoke (submit_extrinsic extrinsic wait_for_inclusion
                        wait_for_finalization) ;;
  invoke console_status_exit ;;
  if negb wait_for_finalization && negb wait_for_inclusion then
    invoke (console_print "[green]Refund transaction submitted.[/green]") ;;
    Ret (true, "Refund transaction submitted.")
  else
  invoke (process_events response) ;;
  succeeded <- invoke (await_is_success response) ;;
  if negb succeeded then
    shown <- invoke (format_error_message (error_message response)) ;;
    invoke (print_error
              (":cross_mark: [red]Failed to refund contributors.[/red]"
               ++ Fmt.nl ++ shown)) ;;
    (* line 174: [await response.error_message.get("name", "Unknown error")]
       awaits what [.get] hands back.  [None] has no [.get]; on the error
       dictionary [.get] hands back a [str], which is then awaited *)
    match error_message response with
    | Some fields =>
        name <- await_str (default "Unknown error" (fields !! "name")) ;;
        Ret (false, name)
    | None => Raise (AttributeError "'NoneType' object has no attribute 'get'")
    end
  else
  invoke (console_print
            ("[green]Refund transaction succeeded![/green]" ++ Fmt.nl
             ++ "Contributors have been refunded for Crowdloan #"
             ++ Fmt.str crowdloan_id ++ ".")) ;;
  invoke (print_extrinsic_id response) ;;
  Ret (true, "Refund completed successfully.")
  end.

(** ** Vocabulary of the properties *)

(** [k] is the smallest integer with [k * refund_limit >= contributors_count]:
    the number of full batches that covers every contributor. *)
Definition least_cover (contributors_count refund_limit k : Z) : Prop :=
  k * refund_limit >= contributors_count /\
  forall j : Z, j * refund_limit >= contributors_count -> k <= j.

(** The identifier resolves to a snapshot that passes both checks of the
    gate: not finalized, and the window has closed. *)
Definition eligible (env : Env) (crowdloan_id : Z) (c : CrowdloanData) : Prop :=
  ledger_crowdloan env crowdloan_id = Some c /\
  finalized c = false /\
  end_ c <= ledger_block env.

(** The confirmation step lets the refund go ahead: prompting is off, or
    the user answers yes. *)
Definition goes_ahead (env : Env) (crowdloan_id : Z) (prompt : bool) : Prop :=
  prompt = false \/ confirm_answer env (proceed_question crowdloan_id) false = true.

(** The call the command composes, the extrinsic it signs, and the receipt
    the ledger hands back for it. *)
Definition refund_call (crowdloan_id : Z) : GenericCall :=
  {| call_module := "Crowdloan"; call_function := "refund";
     call_params := [("crowdloan_id", crowdloan_id)] |}.

Definition refund_extrinsic (wallet : Wallet) (crowdloan_id : Z) : Extrinsic :=
  {| ext_call := refund_call crowdloan_id; ext_keypair := coldkey wallet |}.

Definition receipt (env : Env) (wallet : Wallet) (crowdloan_id : Z)
    (wait_for_inclusion wait_for_finalization : bool) : Response :=
  ledger_receipt env (refund_extrinsic wallet crowdloan_id)
    wait_for_inclusion wait_for_finalization.

(** The calls that build and send the refund. *)
Definition sends_refund (e : Event) : bool :=
  match e with
  | compose_call _ _ _ | create_signed_extrinsic _ _ | submit_extrinsic _ _ _ =>
      true
  | _ => false
  end.

(** The calls that look at the receipt of a submission. *)
Definition consults_receipt (e : Event) : bool :=
  match e with
  | process_events _ | await_is_success _ | format_error_message _
  | print_extrinsic_id _ => true
  | _ => false
  end.

(** The calls that print a table. *)
Definition prints_table (e : Event) : bool :=
  match e with
  | console_print_table _ => true
  | _ => false
  end.

(** The calls that ask the user, and the calls that unlock the wallet. *)
Definition asks_confirmation (e : Event) : bool :=
  match e with
  | Confirm_ask _ _ => true
  | _ => false
  end.

Definition unlocks_wallet (e : Event) : bool :=
  match e with
  | unlock_key _ => true
  | _ => false
  end.

(** The printed table has a row for the estimate; the printed text is the
    note of lines 126-130. *)
Definition shows_estimate (e : Event) : bool :=
  match e with
  | console_print_table table =>
      existsb (fun row => String.eqb (fst row) "Estimated Calls Needed") table
  | _ => false
  end.

Definition prints_note (e : Event) : bool :=
  match e with
  | console_print text => String.prefix (Fmt.nl ++ "[yellow]Note:[/yellow]") text
  | _ => false
  end.

(** [eligible], decided: the two checks of lines 53-68 on what the ledger
    answers. *)
Definition passes_gate (env : Env) (crowdloan_id : Z) : bool :=
  match ledger_crowdloan env crowdloan_id with
  | Some c => negb (finalized c) && negb (end_ c >? ledger_block env)
  | None => false
  end.

(** [goes_ahead], decided. *)
Definition proceeds (env : Env) (crowdloan_id : Z) (prompt : bool) : bool :=
  negb prompt || confirm_answer env (proceed_question crowdloan_id) false.

(** Everything that stands before the submission has been passed: the
    gate, the confirmation and the unlocking of the wallet. *)
Definition cleared (env : Env) (wallet : Wallet) (crowdloan_id : Z)
    (prompt : bool) : bool :=
  passes_gate env crowdloan_id && proceeds env crowdloan_id prompt
  && success (unlock_result env wallet).




(** The same collaborators, with other answers for the constants of the
    ledger. *)
Definition with_constant (env : Env) (constant : string -> Z) : Env :=
  {| ledger_crowdloan := ledger_crowdloan env;
     ledger_block := ledger_block env;
     ledger_constant := constant;
     duration_text := duration_text env;
     confirm_answer := confirm_answer env;
     unlock_result := unlock_result env;
     ledger_receipt := ledger_receipt env;
     error_text := error_text env |}.

(** ** Concrete invocations

    Crowdloan #7 and the answers of the collaborators in the situations the
    properties below are exercised on. *)

Module Scenario.

Definition alice : Wallet := {| coldkey := "5FHneW46xGXgs5mUiveU4sbTyGBzmstUspZC92UhjJM694ty" |}.

Definition snapshot (end_block count : Z) (is_final : bool) : CrowdloanData :=
  {| end_ := end_block; cap := 1000; raised := 400; deposit := 50;
     contributors_count := count; finalized := is_final |}.

Definition unlocked : UnlockStatus := {| success := true; message := "" |}.

Definition locked : UnlockStatus :=
  {| success := false; message := "Incorrect password" |}.

Definition accepted_receipt : Response :=
  {| is_success := true; error_message := None |}.

Definition rejected_receipt (fields : gmap string string) : Response :=
  {| is_success := false; error_message := Some fields |}.

Definition insufficient_funds : gmap string string :=
  <["name" := "InsufficientFunds"]> (<["type" := "Module"]> ∅).

Definition nameless : gmap string string := <["type" := "Module"]> ∅.

(** Crowdloan #7 is the only one on the ledger. *)
Definition world (c : CrowdloanData) (block limit : Z) (yes : bool)
    (unlock : UnlockStatus) (r : Response) : Env :=
  {| ledger_crowdloan := fun i => if i =? 7 then Some c else None;
     ledger_block := block;
     ledger_constant := fun _ => limit;
     duration_text := fun blocks => Fmt.str blocks ++ " blocks";
     confirm_answer := fun _ _ => yes;
     unlock_result := fun _ => unlock;
     ledger_receipt := fun _ _ _ => r;
     error_text := fun _ => "{...}" |}.

(** The window closed at block 100, the ledger is at block 150. *)
Definition ended (count limit : Z) (yes : bool) (unlock : UnlockStatus)
    (r : Response) : Env :=
  world (snapshot 100 count false) 150 limit yes unlock r.

End Scenario.

(** ** The batching estimate *)

Lemma estimated_calls_pos_limit (c limit : Z) :
  0 < limit -> estimated_calls c limit = Z.max 0 c / limit + 1.
Proof.
  intros Hl. unfold estimated_calls, refundable_contributors.
  destruct (Z.gtb_spec limit 0) as [_ | Hle]; [ | lia ].
  replace (Z.max 0 c + limit) with (Z.max 0 c + 1 * limit) by ring.
  apply Z_div_plus_full. lia.
Qed.

Lemma estimated_calls_nonpos_limit (c limit : Z) :
  limit <= 0 -> estimated_calls c limit = 0.
Proof.
  intros Hl. unfold estimated_calls.
  destruct (Z.gtb_spec limit 0); [ lia | reflexivity ].
Qed.

(** X6: with a positive limit and a count that is not negative, the
    estimate is the smallest [k] whose batches hold strictly more than the
    contributors: that many calls always cover everyone. *)
Lemma estimated_calls_least_strict (c limit : Z) :
  0 <= c -> 0 < limit ->
  c < estimated_calls c limit * limit /\
  forall j : Z, c < j * limit -> estimated_calls c limit <= j.
Proof.
  intros Hc Hl. rewrite estimated_calls_pos_limit by assumption.
  rewrite Z.max_r by assumption.
  pose proof (Z.div_mod c limit ltac:(lia)) as Hdm.
  pose proof (Z.mod_pos_bound c limit Hl) as Hm.
  split; [ nia | ].
  intros j Hj. nia.
Qed.

(** C1 (the code departs from it): the estimate is meant to be the smallest
    [k] with [k * refund_limit >= contributors_count].  The code adds a whole
    [refund_limit] before dividing, so it is one too high whenever the count
    is a multiple of the limit: no contributors give 1 instead of 0, and
    exactly [refund_limit] contributors give 2 although 1 batch covers them;
    [refund_limit + 1] contributors give 2 as expected.  With 100 contributors
    and a limit of 100 the command tells the user to run it twice. *)
Theorem estimated_calls_exceeds_least_cover :
  estimated_calls 0 100 = 1 /\ least_cover 0 100 0 /\
  estimated_calls 100 100 = 2 /\ least_cover 100 100 1 /\
  ~ least_cover 100 100 (estimated_calls 100 100) /\
  estimated_calls 101 100 = 2 /\
  In (console_print_table
        [("Crowdloan ID", Text "#7"); ("Total Contributors", Text "100");
         ("Refund Limit (per call)", Text "100 contributors");
         ("Amount to Refund", Amount 350);
         ("Status", Text status_failed);
         ("Estimated Calls Needed",
          Text "[yellow]~2[/yellow] (due to contributor limit)")])
     (trace (Scenario.ended 100 100 false Scenario.unlocked
               Scenario.accepted_receipt)
        (refund_crowdloan Scenario.alice 7 true false true)).
Proof.
  repeat split; try reflexivity; unfold least_cover in *; try lia.
  - intros [_ Hleast]. specialize (Hleast 1 ltac:(lia)).
    vm_compute in Hleast. apply Hleast. reflexivity.
  - vm_compute. tauto.
Qed.

(** C2: for a count that is not negative the estimate is
    [(contributors_count + refund_limit) // refund_limit] when the limit is
    positive and 0 when it is not; 250 contributors with a limit of 100
    give 3. *)
Theorem estimated_calls_formula (contributors_count refund_limit : Z) :
  0 <= contributors_count ->
  (refund_limit > 0 ->
   estimated_calls contributors_count refund_limit
   = (contributors_count + refund_limit) / refund_limit) /\
  (refund_limit <= 0 ->
   estimated_calls contributors_count refund_limit = 0) /\
  estimated_calls 250 100 = 3.
Proof.
  intros Hc. split; [ | split ].
  - intros Hl. unfold estimated_calls, refundable_contributors.
    rewrite Z.max_r by assumption.
    destruct (Z.gtb_spec refund_limit 0); [ reflexivity | lia ].
  - apply estimated_calls_nonpos_limit.
  - reflexivity.
Qed.

Lemma estimated_calls_formula_witness :
  0 <= 250 /\
  estimated_calls 250 100 = (250 + 100) / 100 /\
  estimated_calls 250 (-4) = 0.
Proof.
  split; [ lia | ].
  split.
  - apply (estimated_calls_formula 250 100); lia.
  - apply (estimated_calls_formula 250 (-4)); lia.
Defined.

(** C10: with a positive limit the estimate is
    [max(0, contributors_count) // refund_limit + 1] for every integer count,
    hence at least 1; a count of 0 gives 1, and a negative count gives what
    0 gives. *)
Theorem estimated_calls_floor_plus_one (contributors_count refund_limit : Z) :
  refund_limit > 0 ->
  estimated_calls contributors_count refund_limit
  = Z.max 0 contributors_count / refund_limit + 1 /\
  1 <= estimated_calls contributors_count refund_limit /\
  estimated_calls 0 refund_limit = 1 /\
  (contributors_count < 0 ->
   estimated_calls contributors_count refund_limit
   = estimated_calls 0 refund_limit).
Proof.
  intros Hl.
  assert (Hzero : estimated_calls 0 refund_limit = 1).
  { rewrite estimated_calls_pos_limit by lia.
    rewrite Z.max_r by lia. rewrite Z.div_0_l by lia. reflexivity. }
  split; [ apply estimated_calls_pos_limit; lia | ].
  split; [ | split; [ exact Hzero | ] ].
  - rewrite estimated_calls_pos_limit by lia.
    pose proof (Z.div_pos (Z.max 0 contributors_count) refund_limit
                  ltac:(lia) ltac:(lia)).
    lia.
  - intros Hneg. rewrite !estimated_calls_pos_limit by lia.
    rewrite Z.max_l by lia. rewrite Z.max_r by lia. reflexivity.
Qed.

Lemma estimated_calls_floor_plus_one_witness :
  100 > 0 /\
  estimated_calls (-5) 100 = Z.max 0 (-5) / 100 + 1 /\
  1 <= estimated_calls (-5) 100.
Proof.
  split; [ lia | ].
  split; apply (estimated_calls_floor_plus_one (-5) 100); lia.
Defined.

(** ** Running the command *)

(** Running a sequence runs its first part and then, unless that raised,
    the rest on what the first part returned. *)
Lemma run_bind {A B : Type} (env : Env) (p : Prog A) (f : A -> Prog B) :
  run env (bind p f)
  = match run env p with
    | (calls, Returned a) =>
        let '(more, outcome) := run env (f a) in ((calls ++ more)%list, outcome)
    | (calls, Raised exn) => (calls, Raised exn)
    end.
Proof.
  induction p as [a | exn | e k IH]; cbn [run bind].
  - destruct (run env (f a)); reflexivity.
  - reflexivity.
  - rewrite IH. destruct (run env (k (answer env e))) as [calls [a | exn]].
    + destruct (run env (f a)); reflexivity.
    + reflexivity.
Qed.

Lemma status_cases (c : CrowdloanData) (current_block : Z) :
  end_ c <= current_block ->
  status c current_block <> status_active /\
  (status c current_block = status_failed <-> raised c < cap c) /\
  (status c current_block = status_ended <-> ~ raised c < cap c).
Proof.
  intros Hle. unfold status.
  destruct (Z.geb_spec current_block (end_ c)) as [_ | Hlt]; [ | lia ].
  destruct (Z.ltb_spec (raised c) (cap c)) as [Hr | Hr].
  - split; [ discriminate | ].
    split; split; intros H; try reflexivity; try assumption;
      try discriminate H. lia.
  - split; [ discriminate | ].
    split; split; intros H; try reflexivity; try lia; try discriminate H.
Qed.

(** A table with one status row shows that status and no other. *)
Lemma status_row (above below : Table) (shown s : string) :
  (forall cell, ~ In ("Status", cell) above) ->
  (forall cell, ~ In ("Status", cell) below) ->
  In ("Status", Text s) (above ++ ("Status", Text shown) :: below)%list
  <-> s = shown.
Proof.
  intros Ha Hb. rewrite in_app_iff. cbn [In]. split.
  - intros [H | [H | H]].
    + destruct (Ha _ H).
    + injection H as ->. reflexivity.
    + destruct (Hb _ H).
  - intros ->. right. left. reflexivity.
Qed.

(** Evaluates the calls that are determined so far. *)
Ltac exec := cbn [run bind invoke answer when await_str fst snd negb andb].

(** Splits on every test that is still open, and runs on. *)
Ltac branches :=
  repeat match goal with
  | |- context [if ?b then _ else _] => destruct b eqn:?; exec
  | |- context [match error_message ?r with _ => _ end] =>
      destruct (error_message r) eqn:?; exec
  end.

(** No row of a table that is written out has the label in question. *)
Ltac no_such_row :=
  intros ?; cbn [In]; intuition discriminate.

Section Gate.

Variables (env : Env) (wallet : Wallet) (crowdloan_id : Z).
Variables (wait_for_inclusion wait_for_finalization prompt : bool).

Let command : Prog (bool * string) :=
  refund_crowdloan wallet crowdloan_id wait_for_inclusion
    wait_for_finalization prompt.

(** Past the gate the command shows the details, reads the limit and prints
    one table, whose status row is the classification of the snapshot. *)
Lemma eligible_trace (c : CrowdloanData) :
  eligible env crowdloan_id c ->
  exists (header : string) (table : Table) (rest : list Event),
    trace env command
    = get_single_crowdloan crowdloan_id :: get_block_number
      :: show_crowdloan_details crowdloan_id wallet false c (ledger_block env)
      :: get_constant "RefundContributorsLimit"
      :: console_print header :: console_print_table table :: rest /\
    (forall s : string,
       In ("Status", Text s) table <-> s = status c (ledger_block env)) /\
    forallb (fun e => negb (prints_table e)) rest = true.
Proof.
  intros (Hc & Hf & Hend).
  unfold trace, command, refund_crowdloan. exec.
  rewrite Hc, Hf.
  destruct (Z.gtb_spec (end_ c) (ledger_block env)) as [Hgt | _]; [ lia | ].
  exec.
  branches;
    (do 3 eexists; split; [ reflexivity | ];
     split; [ | reflexivity ];
     intros s; unfold add_row; cbn [app];
     first [ apply (status_row [_; _; _; _] [_]); no_such_row
           | apply (status_row [_; _; _; _] []); no_such_row ]).
Qed.

(** An identifier that does not resolve is reported as not found. *)
Lemma not_found_is_reported :
  ledger_crowdloan env crowdloan_id = None ->
  run env command
  = ([get_single_crowdloan crowdloan_id; get_block_number;
      print_error ("[red]Crowdloan #" ++ Fmt.str crowdloan_id
                   ++ " not found.[/red]")],
     Returned (false, "Crowdloan #" ++ Fmt.str crowdloan_id ++ " not found.")).
Proof.
  intros Hnone. unfold command, refund_crowdloan. exec.
  rewrite Hnone. exec. reflexivity.
Qed.

(** C5: a snapshot that is finalized is refused whatever the current block
    is, with the message "Crowdloan #<id> is already finalized."; for
    crowdloan #7 the message is "Crowdloan #7 is already finalized.". *)
Theorem finalized_is_refused (c : CrowdloanData) :
  ledger_crowdloan env crowdloan_id = Some c ->
  finalized c = true ->
  result env command
  = Returned (false, "Crowdloan #" ++ Fmt.str crowdloan_id
                     ++ " is already finalized.") /\
  (crowdloan_id = 7 ->
   result env command = Returned (false, "Crowdloan #7 is already finalized.")).
Proof.
  intros Hc Hf.
  assert (Hrun : result env command
                 = Returned (false, "Crowdloan #" ++ Fmt.str crowdloan_id
                                    ++ " is already finalized.")).
  { unfold result, command, refund_crowdloan. exec.
    rewrite Hc, Hf. exec. reflexivity. }
  split; [ exact Hrun | ].
  intros Hid. rewrite Hrun, Hid. reflexivity.
Qed.

(** The run of the command on a snapshot whose window is still open. *)
Lemma open_window_run (c : CrowdloanData) :
  ledger_crowdloan env crowdloan_id = Some c ->
  finalized c = false ->
  end_ c > ledger_block env ->
  run env command
  = ([get_single_crowdloan crowdloan_id; get_block_number;
      blocks_to_duration (end_ c - ledger_block env);
      print_error ("[red]Crowdloan #" ++ Fmt.str crowdloan_id
                   ++ " is not yet ended. " ++ "End block: [cyan]"
                   ++ Fmt.str_comma (end_ c) ++ "[/cyan] ([dim]"
                   ++ duration_text env (end_ c - ledger_block env)
                   ++ " remaining[/dim])[/red]")],
     Returned (false, "Crowdloan #" ++ Fmt.str crowdloan_id
                      ++ " is not yet ended.")).
Proof.
  intros Hc Hf Hopen.
  unfold command, refund_crowdloan. exec. rewrite Hc, Hf.
  destruct (Z.gtb_spec (end_ c) (ledger_block env)) as [_ | Hle]; [ | lia ].
  exec. reflexivity.
Qed.

(** C6: a snapshot that is not finalized and whose end lies after the
    current block is refused with "Crowdloan #<id> is not yet ended.", and
    the remaining time printed for the user is the duration of
    [end - current_block] blocks; crowdloan #7 with end 100 at block 50 gives
    "Crowdloan #7 is not yet ended.". *)
Theorem open_window_is_refused (c : CrowdloanData) :
  ledger_crowdloan env crowdloan_id = Some c ->
  finalized c = false ->
  end_ c > ledger_block env ->
  result env command
  = Returned (false, "Crowdloan #" ++ Fmt.str crowdloan_id
                     ++ " is not yet ended.") /\
  trace env command
  = [get_single_crowdloan crowdloan_id; get_block_number;
     blocks_to_duration (end_ c - ledger_block env);
     print_error ("[red]Crowdloan #" ++ Fmt.str crowdloan_id
                  ++ " is not yet ended. " ++ "End block: [cyan]"
                  ++ Fmt.str_comma (end_ c) ++ "[/cyan] ([dim]"
                  ++ duration_text env (end_ c - ledger_block env)
                  ++ " remaining[/dim])[/red]")] /\
  (crowdloan_id = 7 -> end_ c = 100 -> ledger_block env = 50 ->
   result env command = Returned (false, "Crowdloan #7 is not yet ended.") /\
   In (blocks_to_duration 50) (trace env command)).
Proof.
  intros Hc Hf Hopen.
  unfold result, trace. rewrite (open_window_run c Hc Hf Hopen). cbn [fst snd].
  split; [ reflexivity | ].
  split; [ reflexivity | ].
  intros Hid Hend Hblock. rewrite Hid, Hend, Hblock.
  split; [ reflexivity | ].
  cbn [In]. right. right. left. reflexivity.
Qed.

(** C7: a resolved snapshot that is not finalized and whose end is not after
    the current block passes the gate (the command goes on to show the
    details and the table), and the status it displays is the "Failed"
    classification exactly when raised < cap, and "Ended but not finalized"
    otherwise. *)
Theorem ended_status_classification (c : CrowdloanData) :
  ledger_crowdloan env crowdloan_id = Some c ->
  finalized c = false ->
  ledger_block env >= end_ c ->
  (exists (header : string) (table : Table) (rest : list Event),
     trace env command
     = get_single_crowdloan crowdloan_id :: get_block_number
       :: show_crowdloan_details crowdloan_id wallet false c (ledger_block env)
       :: get_constant "RefundContributorsLimit"
       :: console_print header :: console_print_table table :: rest /\
     forall s : string,
       In ("Status", Text s) table <-> s = status c (ledger_block env)) /\
  (status c (ledger_block env) = status_failed <-> raised c < cap c) /\
  (~ raised c < cap c -> status c (ledger_block env) = status_ended).
Proof.
  intros Hc Hf Hend.
  assert (Hel : eligible env crowdloan_id c) by (repeat split; [ assumption .. | lia ]).
  destruct (eligible_trace c Hel) as (header & table & rest & Htr & Hrow & _).
  destruct (status_cases c (ledger_block env) ltac:(lia)) as (_ & Hfailed & Hended).
  split; [ exists header, table, rest; split; assumption | ].
  split; [ exact Hfailed | apply Hended ].
Qed.

(** C8: the "Active" branch of the classification is never taken: whenever
    the command prints its table, the snapshot's end is not after the
    current block, and the status in the table is not "Active". *)
Theorem active_status_unreachable (table : Table) (s : string) :
  In (console_print_table table) (trace env command) ->
  In ("Status", Text s) table ->
  s <> status_active /\
  exists c : CrowdloanData,
    ledger_crowdloan env crowdloan_id = Some c /\
    ledger_block env >= end_ c /\
    s = status c (ledger_block env).
Proof.
  intros Hprinted Hshown.
  destruct (ledger_crowdloan env crowdloan_id) as [c | ] eqn:Hc.
  2:{ exfalso. unfold trace in Hprinted.
      rewrite (not_found_is_reported Hc) in Hprinted.
      cbn [fst In] in Hprinted. intuition discriminate. }
  destruct (finalized c) eqn:Hf.
  { exfalso. revert Hprinted.
    unfold trace, command, refund_crowdloan. exec. rewrite Hc, Hf. exec.
    cbn [In]. intuition discriminate. }
  destruct (Z.gtb_spec (end_ c) (ledger_block env)) as [Hgt | Hle].
  { exfalso.
    unfold trace in Hprinted.
    rewrite (open_window_run c Hc Hf ltac:(lia)) in Hprinted.
    cbn [fst In] in Hprinted. intuition discriminate. }
  assert (Hel : eligible env crowdloan_id c) by (repeat split; assumption).
  destruct (eligible_trace c Hel) as (header & printed & rest & Htr & Hrow & Hrest).
  rewrite Htr in Hprinted. cbn [In] in Hprinted.
  assert (Htable : table = printed).
  { destruct Hprinted as [H | [H | [H | [H | [H | [H | H]]]]]];
      try discriminate H.
    - injection H as ->. reflexivity.
    - exfalso. rewrite forallb_forall in Hrest.
      specialize (Hrest _ H). discriminate Hrest. }
  subst table. apply Hrow in Hshown. subst s.
  split.
  - apply (status_cases c (ledger_block env) Hle).
  - exists c. repeat split; [ lia ].
Qed.

End Gate.

Section Submission.

Variables (env : Env) (wallet : Wallet) (crowdloan_id : Z).
Variables (wait_for_inclusion wait_for_finalization prompt : bool).
Variable c : CrowdloanData.

Hypothesis Heligible : eligible env crowdloan_id c.
Hypothesis Hgoes_ahead : goes_ahead env crowdloan_id prompt.

Let command : Prog (bool * string) :=
  refund_crowdloan wallet crowdloan_id wait_for_inclusion
    wait_for_finalization prompt.

(** Runs the command up to the unlocking of the wallet. *)
Ltac to_unlock :=
  destruct Heligible as (Hc & Hf & Hend);
  unfold result, trace, command, refund_crowdloan; exec;
  rewrite Hc, Hf;
  destruct (Z.gtb_spec (end_ c) (ledger_block env)) as [Hgt | _]; [ lia | ];
  exec;
  destruct (estimated_calls _ _ >? 1); exec;
  (destruct Hgoes_ahead as [-> | Hyes];
   [ | destruct prompt; [ exec; rewrite Hyes | ] ]);
  exec.

(** C9: when the unlocking of the wallet fails, the command returns false
    with the message of the unlock step, the last calls it makes are the
    unlock and the printing of that message, and no refund call is
    composed, signed or submitted. *)
Theorem unlock_failure_stops (Hlocked : success (unlock_result env wallet) = false) :
  result env command = Returned (false, message (unlock_result env wallet)) /\
  (exists before : list Event,
     trace env command
     = (before ++ [unlock_key wallet;
                   print_error ("[red]" ++ message (unlock_result env wallet)
                                ++ "[/red]")])%list) /\
  forallb (fun e => negb (sends_refund e)) (trace env command) = true.
Proof.
  to_unlock; rewrite Hlocked; exec;
    (split; [ reflexivity | ];
     split; [ | reflexivity ];
     match goal with
     | |- exists before, ?calls = _ =>
         first [ exists (firstn 6 calls); reflexivity
               | exists (firstn 7 calls); reflexivity
               | exists (firstn 8 calls); reflexivity ]
     end).
Qed.

Hypothesis Hunlocked : success (unlock_result env wallet) = true.

(** Runs the command up to the receipt of the submission. *)
Ltac to_receipt := to_unlock; rewrite Hunlocked; exec.

(** C4: with neither wait requested the command returns true with "Refund
    transaction submitted." right after the submission: the calls end with
    the submission, the end of the spinner and the printed confirmation, and
    nothing ever looks at the receipt. *)
Theorem fire_and_forget
    (Hinclusion : wait_for_inclusion = false)
    (Hfinalization : wait_for_finalization = false) :
  result env command = Returned (true, "Refund transaction submitted.") /\
  (exists before : list Event,
     trace env command
     = (before ++ [submit_extrinsic (refund_extrinsic wallet crowdloan_id)
                     false false;
                   console_status_exit;
                   console_print "[green]Refund transaction submitted.[/green]"]
       )%list) /\
  forallb (fun e => negb (consults_receipt e)) (trace env command) = true.
Proof.
  subst wait_for_inclusion wait_for_finalization.
  to_receipt;
    (split; [ reflexivity | ];
     split; [ | reflexivity ];
     match goal with
     | |- exists before, ?calls = _ =>
         first [ exists (firstn 10 calls); reflexivity
               | exists (firstn 11 calls); reflexivity
               | exists (firstn 12 calls); reflexivity ]
     end).
Qed.

(** C3 (the code departs from it): when a wait was requested and the
    ledger reports that the extrinsic failed, the command is meant to return
    false with the name of the structured error, or "Unknown error" when it
    has none.  Line 174 awaits the text that [.get] hands back, so after
    printing the error the command raises instead of returning: a
    [TypeError] on an error dictionary (with or without a name), an
    [AttributeError] when there is no error object.  No failed receipt gives
    (false, "InsufficientFunds") or (false, "Unknown error"). *)
Theorem chain_rejection_raises
    (Hwait : wait_for_inclusion = true \/ wait_for_finalization = true)
    (Hfailed : is_success (receipt env wallet crowdloan_id wait_for_inclusion
                             wait_for_finalization) = false) :
  let response := receipt env wallet crowdloan_id wait_for_inclusion
                    wait_for_finalization in
  result env command
  = Raised
      match error_message response with
      | Some _ => TypeError "object str can't be used in 'await' expression"
      | None => AttributeError "'NoneType' object has no attribute 'get'"
      end /\
  (forall (flag : bool) (text : string),
     result env command <> Returned (flag, text)) /\
  exists before : list Event,
    trace env command
    = (before
       ++ [process_events response; await_is_success response;
           format_error_message (error_message response);
           print_error
             (":cross_mark: [red]Failed to refund contributors.[/red]"
              ++ Fmt.nl ++ error_text env (error_message response))])%list.
Proof.
  intros response. unfold response. clear response.
  assert (Hnowait : negb wait_for_finalization && negb wait_for_inclusion = false)
    by (destruct Hwait as [-> | ->]; [ apply andb_false_r | reflexivity ]).
  unfold receipt, refund_extrinsic, refund_call in *.
  to_receipt; rewrite Hnowait; exec; rewrite Hfailed; exec;
    (match goal with
     | |- context [match error_message ?r with _ => _ end] =>
         destruct (error_message r)
     end;
     exec;
     (split; [ reflexivity | ];
      split; [ intros flag text; discriminate | ];
      match goal with
      | |- exists before, ?calls = _ =>
          first [ exists (firstn 12 calls); reflexivity
                | exists (firstn 13 calls); reflexivity
                | exists (firstn 14 calls); reflexivity ]
      end)).
Qed.

End Submission.

(** ** The properties on crowdloan #7 *)

Lemma finalized_is_refused_witness :
  let env := Scenario.world (Scenario.snapshot 100 250 true) 150 100 true
               Scenario.unlocked Scenario.accepted_receipt in
  ledger_crowdloan env 7 = Some (Scenario.snapshot 100 250 true) /\
  finalized (Scenario.snapshot 100 250 true) = true /\
  result env (refund_crowdloan Scenario.alice 7 true false true)
  = Returned (false, "Crowdloan #7 is already finalized.").
Proof.
  intros env.
  split; [ reflexivity | ].
  split; [ reflexivity | ].
  exact (proj2 (finalized_is_refused env Scenario.alice 7 true false true
                  (Scenario.snapshot 100 250 true) eq_refl eq_refl) eq_refl).
Defined.

Lemma open_window_is_refused_witness :
  let c := Scenario.snapshot 100 250 false in
  let env := Scenario.world c 50 100 true Scenario.unlocked
               Scenario.accepted_receipt in
  ledger_crowdloan env 7 = Some c /\
  finalized c = false /\
  end_ c > ledger_block env /\
  result env (refund_crowdloan Scenario.alice 7 true false true)
  = Returned (false, "Crowdloan #7 is not yet ended.") /\
  In (blocks_to_duration 50)
     (trace env (refund_crowdloan Scenario.alice 7 true false true)).
Proof.
  intros c env.
  assert (Hopen : end_ c > ledger_block env) by (cbn; lia).
  split; [ reflexivity | ].
  split; [ reflexivity | ].
  split; [ exact Hopen | ].
  exact (proj2 (proj2 (open_window_is_refused env Scenario.alice 7 true false
                         true c eq_refl eq_refl Hopen))
           eq_refl eq_refl eq_refl).
Defined.

Lemma ended_status_classification_witness :
  let c := Scenario.snapshot 100 250 false in
  let env := Scenario.ended 250 100 false Scenario.unlocked
               Scenario.accepted_receipt in
  ledger_crowdloan env 7 = Some c /\
  finalized c = false /\
  ledger_block env >= end_ c /\
  raised c < cap c /\
  status c (ledger_block env) = status_failed.
Proof.
  intros c env.
  assert (Hended : ledger_block env >= end_ c) by (cbn; lia).
  assert (Hshort : raised c < cap c) by (cbn; lia).
  split; [ reflexivity | ].
  split; [ reflexivity | ].
  split; [ exact Hended | ].
  split; [ exact Hshort | ].
  exact (proj2 (proj1 (proj2 (ended_status_classification env Scenario.alice 7
                                true false true c eq_refl eq_refl Hended)))
           Hshort).
Defined.

Lemma active_status_unreachable_witness :
  let env := Scenario.ended 50 100 false Scenario.unlocked
               Scenario.accepted_receipt in
  let table : Table :=
    [("Crowdloan ID", Text "#7"); ("Total Contributors", Text "50");
     ("Refund Limit (per call)", Text "100 contributors");
     ("Amount to Refund", Amount 350);
     ("Status", Text status_failed)] in
  In (console_print_table table)
     (trace env (refund_crowdloan Scenario.alice 7 true false true)) /\
  In ("Status", Text status_failed) table /\
  status_failed <> status_active.
Proof.
  intros env table.
  assert (Hprinted : In (console_print_table table)
            (trace env (refund_crowdloan Scenario.alice 7 true false true)))
    by (vm_compute; tauto).
  assert (Hshown : In ("Status", Text status_failed) table)
    by (cbn [In table]; tauto).
  split; [ exact Hprinted | ].
  split; [ exact Hshown | ].
  exact (proj1 (active_status_unreachable env Scenario.alice 7 true false true
                  table status_failed Hprinted Hshown)).
Defined.

Lemma unlock_failure_stops_witness :
  let c := Scenario.snapshot 100 250 false in
  let env := Scenario.ended 250 100 true Scenario.locked
               Scenario.accepted_receipt in
  eligible env 7 c /\
  goes_ahead env 7 true /\
  success (unlock_result env Scenario.alice) = false /\
  result env (refund_crowdloan Scenario.alice 7 true false true)
  = Returned (false, "Incorrect password").
Proof.
  intros c env.
  assert (Hel : eligible env 7 c)
    by (split; [ reflexivity | split; [ reflexivity | cbn; lia ] ]).
  assert (Hgo : goes_ahead env 7 true) by (right; reflexivity).
  split; [ exact Hel | ].
  split; [ exact Hgo | ].
  split; [ reflexivity | ].
  exact (proj1 (unlock_failure_stops env Scenario.alice 7 true false true c
                  Hel Hgo eq_refl)).
Defined.

Lemma fire_and_forget_witness :
  let c := Scenario.snapshot 100 250 false in
  let env := Scenario.ended 250 100 true Scenario.unlocked
               (Scenario.rejected_receipt Scenario.insufficient_funds) in
  eligible env 7 c /\
  goes_ahead env 7 true /\
  success (unlock_result env Scenario.alice) = true /\
  result env (refund_crowdloan Scenario.alice 7 false false true)
  = Returned (true, "Refund transaction submitted.").
Proof.
  intros c env.
  assert (Hel : eligible env 7 c)
    by (split; [ reflexivity | split; [ reflexivity | cbn; lia ] ]).
  assert (Hgo : goes_ahead env 7 true) by (right; reflexivity).
  split; [ exact Hel | ].
  split; [ exact Hgo | ].
  split; [ reflexivity | ].
  exact (proj1 (fire_and_forget env Scenario.alice 7 false false true c
                  Hel Hgo eq_refl eq_refl eq_refl)).
Defined.

Lemma chain_rejection_raises_witness :
  let c := Scenario.snapshot 100 250 false in
  let env := Scenario.ended 250 100 true Scenario.unlocked
               (Scenario.rejected_receipt Scenario.insufficient_funds) in
  eligible env 7 c /\
  goes_ahead env 7 true /\
  success (unlock_result env Scenario.alice) = true /\
  is_success (receipt env Scenario.alice 7 true true) = false /\
  error_message (receipt env Scenario.alice 7 true true)
  = Some Scenario.insufficient_funds /\
  Scenario.insufficient_funds !! "name" = Some "InsufficientFunds" /\
  result env (refund_crowdloan Scenario.alice 7 true true true)
  = Raised (TypeError "object str can't be used in 'await' expression") /\
  result env (refund_crowdloan Scenario.alice 7 true true true)
  <> Returned (false, "InsufficientFunds") /\
  result (Scenario.ended 250 100 true Scenario.unlocked
            (Scenario.rejected_receipt Scenario.nameless))
    (refund_crowdloan Scenario.alice 7 true false true)
  <> Returned (false, "Unknown error").
Proof.
  intros c env.
  assert (Hel : eligible env 7 c)
    by (split; [ reflexivity | split; [ reflexivity | cbn; lia ] ]).
  assert (Hgo : goes_ahead env 7 true) by (right; reflexivity).
  split; [ exact Hel | ].
  split; [ exact Hgo | ].
  do 4 (split; [ reflexivity | ]).
  split; [ | split ].
  - exact (proj1 (chain_rejection_raises env Scenario.alice 7 true true true c
                    Hel Hgo eq_refl (or_introl eq_refl) eq_refl)).
  - exact (proj1 (proj2 (chain_rejection_raises env Scenario.alice 7 true true
                           true c Hel Hgo eq_refl (or_introl eq_refl) eq_refl))
             false "InsufficientFunds").
  - refine (proj1 (proj2 (chain_rejection_raises
                            (Scenario.ended 250 100 true Scenario.unlocked
                               (Scenario.rejected_receipt Scenario.nameless))
                            Scenario.alice 7 true false true c _ _ eq_refl
                            (or_introl eq_refl) eq_refl))
              false "Unknown error").
    + split; [ reflexivity | split; [ reflexivity | cbn; lia ] ].
    + right. reflexivity.
Defined.

(** Scenario D: 250 contributors with a limit of 100 are announced as about
    3 calls, and declining the question cancels the refund before the wallet
    is touched. *)
Example declined_is_cancelled :
  let env := Scenario.ended 250 100 false Scenario.unlocked
               Scenario.accepted_receipt in
  let command := refund_crowdloan Scenario.alice 7 true false true in
  result env command = Returned (false, "Refund cancelled by user.") /\
  In (console_print_table
        [("Crowdloan ID", Text "#7"); ("Total Contributors", Text "250");
         ("Refund Limit (per call)", Text "100 contributors");
         ("Amount to Refund", Amount 350);
         ("Status", Text status_failed);
         ("Estimated Calls Needed",
          Text "[yellow]~3[/yellow] (due to contributor limit)")])
     (trace env command) /\
  ~ In (unlock_key Scenario.alice) (trace env command).
Proof.
  intros env command. split; [ reflexivity | ].
  split.
  - vm_compute. tauto.
  - vm_compute. intuition discriminate.
Qed.

(** Scenario C: crowdloan #8 is not on the ledger. *)
Example missing_is_not_found :
  result (Scenario.ended 250 100 true Scenario.unlocked
            Scenario.accepted_receipt)
    (refund_crowdloan Scenario.alice 8 true false true)
  = Returned (false, "Crowdloan #8 not found.").
Proof. reflexivity. Qed.

(** ** What the command does on every run *)

Lemma passes_gate_eligible (env : Env) (crowdloan_id : Z) :
  passes_gate env crowdloan_id = true
  <-> exists c : CrowdloanData, eligible env crowdloan_id c.
Proof.
  unfold passes_gate, eligible. split.
  - destruct (ledger_crowdloan env crowdloan_id) as [c | ]; [ | discriminate ].
    destruct (finalized c) eqn:Hf; [ discriminate | ].
    destruct (Z.gtb_spec (end_ c) (ledger_block env)); [ discriminate | ].
    intros _. exists c. repeat split; assumption.
  - intros (c & -> & -> & Hend).
    destruct (Z.gtb_spec (end_ c) (ledger_block env)); [ lia | reflexivity ].
Qed.

Lemma proceeds_goes_ahead (env : Env) (crowdloan_id : Z) (prompt : bool) :
  proceeds env crowdloan_id prompt = true
  <-> goes_ahead env crowdloan_id prompt.
Proof.
  unfold proceeds, goes_ahead. destruct prompt; cbn [negb orb].
  - split; [ intros H; right; exact H | intros [H | H]; [ discriminate | exact H ] ].
  - split; [ intros _; left; reflexivity | reflexivity ].
Qed.

(** The estimate exceeds one call exactly when the limit is positive and
    the contributors reach it. *)
Lemma estimate_exceeds_one (c limit : Z) :
  (estimated_calls c limit >? 1) = (0 <? limit) && (limit <=? c).
Proof.
  destruct (Z.ltb_spec 0 limit) as [Hpos | Hnon]; cbn [andb].
  - rewrite estimated_calls_pos_limit by assumption.
    destruct (Z.leb_spec limit c) as [Hle | Hlt].
    + assert (1 <= Z.max 0 c / limit)
        by (apply Z.div_le_lower_bound; lia).
      destruct (Z.gtb_spec (Z.max 0 c / limit + 1) 1); [ reflexivity | lia ].
    + assert (Z.max 0 c / limit = 0) by (apply Z.div_small; lia).
      destruct (Z.gtb_spec (Z.max 0 c / limit + 1) 1); [ lia | reflexivity ].
  - rewrite estimated_calls_nonpos_limit by assumption. reflexivity.
Qed.

Section Protocol.

Variables (env : Env) (wallet : Wallet) (crowdloan_id : Z).
Variables (wait_for_inclusion wait_for_finalization prompt : bool).

Let command : Prog (bool * string) :=
  refund_crowdloan wallet crowdloan_id wait_for_inclusion
    wait_for_finalization prompt.

Let the_receipt : Response :=
  receipt env wallet crowdloan_id wait_for_inclusion wait_for_finalization.

(** Follows the command down every path: each test on an answer of the
    collaborators is split on its two outcomes. *)
Ltac explore :=
  unfold cleared, passes_gate, proceeds, the_receipt, receipt,
    refund_extrinsic, refund_call, trace, result, command, refund_crowdloan;
  destruct wait_for_inclusion, wait_for_finalization, prompt;
  repeat match goal with
  | _ => progress cbn [run bind invoke answer when await_str fst snd negb
                       andb orb
                       ledger_crowdloan ledger_block ledger_constant
                       duration_text confirm_answer unlock_result
                       ledger_receipt error_text]
  | |- context [ledger_crowdloan env crowdloan_id] =>
      destruct (ledger_crowdloan env crowdloan_id) eqn:?
  | |- context [finalized ?c] => destruct (finalized c) eqn:?
  | |- context [end_ ?c >? ?b] => destruct (end_ c >? b) eqn:?
  | |- context [estimated_calls ?n ?l >? 1] =>
      destruct (estimated_calls n l >? 1) eqn:?
  | |- context [confirm_answer env ?q ?d] =>
      destruct (confirm_answer env q d) eqn:?
  | |- context [success ?u] => destruct (success u) eqn:?
  | |- context [is_success ?r] => destruct (is_success r) eqn:?
  | |- context [match error_message ?r with _ => _ end] =>
      destruct (error_message r) eqn:?
  end.

(** X8: the command composes, signs and submits at most once, in that
    order, and only when the gate, the confirmation and the unlocking are
    passed; what it submits is the call [Crowdloan.refund] with the
    identifier as its only parameter, signed with the wallet's coldkey and
    sent with the caller's two wait flags. *)
Theorem refund_sent_once_when_cleared :
  List.filter sends_refund (trace env command)
  = if cleared env wallet crowdloan_id prompt then
      [compose_call "Crowdloan" "refund" [("crowdloan_id", crowdloan_id)];
       create_signed_extrinsic (refund_call crowdloan_id) (coldkey wallet);
       submit_extrinsic (refund_extrinsic wallet crowdloan_id)
         wait_for_inclusion wait_for_finalization]
    else [].
Proof. explore; reflexivity. Qed.

(** X9: the wallet is unlocked at most once, and exactly when the gate is
    passed and the confirmation lets the refund go ahead; it is the wallet
    of the caller. *)
Theorem wallet_unlocked_once_when_confirmed :
  List.filter unlocks_wallet (trace env command)
  = if passes_gate env crowdloan_id && proceeds env crowdloan_id prompt
    then [unlock_key wallet]
    else [].
Proof. explore; reflexivity. Qed.

(** X3: the user is asked at most once, exactly when prompting is on and
    the gate is passed; the question names the crowdloan and its default
    answer is no.  With prompting off nothing is ever asked. *)
Theorem asked_once_when_prompted :
  List.filter asks_confirmation (trace env command)
  = if passes_gate env crowdloan_id && prompt
    then [Confirm_ask (proceed_question crowdloan_id) false]
    else [].
Proof. explore; reflexivity. Qed.

(** X11: the receipt is looked at exactly when the refund was sent and a
    wait was requested: its events are processed, its verdict is read, and
    then either the extrinsic identifier is printed (success) or the error
    is formatted for the error message (failure). *)
Theorem receipt_read_when_waiting :
  List.filter consults_receipt (trace env command)
  = if cleared env wallet crowdloan_id prompt
       && (wait_for_inclusion || wait_for_finalization)
    then process_events the_receipt :: await_is_success the_receipt
         :: (if is_success the_receipt then [print_extrinsic_id the_receipt]
             else [format_error_message (error_message the_receipt)])
    else [].
Proof. explore; reflexivity. Qed.


(** X12: the refund limit only changes what is displayed: with any other
    answer for the constant the command ends the same way, sends the same
    refund calls, asks the same question and unlocks the same wallet. *)
Theorem limit_only_affects_display (constant : string -> Z) :
  result (with_constant env constant) command = result env command /\
  List.filter (fun e => sends_refund e || asks_confirmation e || unlocks_wallet e
                   || consults_receipt e)
    (trace (with_constant env constant) command)
  = List.filter (fun e => sends_refund e || asks_confirmation e || unlocks_wallet e
                     || consults_receipt e)
      (trace env command).
Proof. unfold with_constant. explore; split; reflexivity. Qed.

End Protocol.

Section Completion.

Variables (env : Env) (wallet : Wallet) (crowdloan_id : Z).
Variables (wait_for_inclusion wait_for_finalization prompt : bool).
Variable c : CrowdloanData.

Hypothesis Heligible : eligible env crowdloan_id c.

Let command : Prog (bool * string) :=
  refund_crowdloan wallet crowdloan_id wait_for_inclusion
    wait_for_finalization prompt.

Let refund_limit : Z := ledger_constant env "RefundContributorsLimit".

(** Runs the command through the gate, up to the table. *)
Ltac past_gate :=
  destruct Heligible as (Hc & Hf & Hend);
  unfold result, trace, command, refund_crowdloan; exec;
  rewrite Hc, Hf;
  destruct (Z.gtb_spec (end_ c) (ledger_block env)) as [Hgt | _]; [ lia | ];
  exec.

(** X5: past the gate, the table has an "Estimated Calls Needed" row, and
    the note about repeated calls is printed, exactly when the limit is
    positive and the number of contributors reaches it; with a limit of
    zero or less neither appears. *)
Theorem estimate_shown_when_limit_reached :
  existsb shows_estimate (trace env command)
  = (0 <? refund_limit) && (refund_limit <=? contributors_count c) /\
  existsb prints_note (trace env command)
  = (0 <? refund_limit) && (refund_limit <=? contributors_count c).
Proof.
  unfold refund_limit. rewrite <- estimate_exceeds_one.
  past_gate.
  destruct (estimated_calls _ _ >? 1); exec; branches; split; reflexivity.
Qed.

(** X2: when the user is asked and answers no, the command returns false
    with "Refund cancelled by user."; the question and the printed
    cancellation are its last two calls. *)
Theorem declined_refund_is_cancelled
    (Hprompt : prompt = true)
    (Hno : confirm_answer env (proceed_question crowdloan_id) false = false) :
  result env command = Returned (false, "Refund cancelled by user.") /\
  exists before : list Event,
    trace env command
    = (before ++ [Confirm_ask (proceed_question crowdloan_id) false;
                  console_print "[yellow]Refund cancelled.[/yellow]"])%list.
Proof.
  subst prompt. past_gate.
  destruct (estimated_calls _ _ >? 1); exec; rewrite Hno; exec;
    (split; [ reflexivity | ];
     match goal with
     | |- exists before, ?calls = _ =>
         first [ exists (firstn 6 calls); reflexivity
               | exists (firstn 7 calls); reflexivity ]
     end).
Qed.

Hypothesis Hgoes_ahead : goes_ahead env crowdloan_id prompt.
Hypothesis Hunlocked : success (unlock_result env wallet) = true.

(** X4: when a wait was requested and the ledger reports success, the
    command returns true with "Refund completed successfully."; after the
    submission it leaves the spinner, processes the events, reads the
    verdict, prints the success text naming the crowdloan, and prints the
    extrinsic identifier last. *)
Theorem acknowledged_refund_succeeds
    (Hwait : wait_for_inclusion = true \/ wait_for_finalization = true)
    (Hok : is_success (receipt env wallet crowdloan_id wait_for_inclusion
                         wait_for_finalization) = true) :
  let response := receipt env wallet crowdloan_id wait_for_inclusion
                    wait_for_finalization in
  result env command = Returned (true, "Refund completed successfully.") /\
  exists before : list Event,
    trace env command
    = (before
       ++ [submit_extrinsic (refund_extrinsic wallet crowdloan_id)
             wait_for_inclusion wait_for_finalization;
           console_status_exit;
           process_events response;
           await_is_success response;
           console_print
             ("[green]Refund transaction succeeded![/green]" ++ Fmt.nl
              ++ "Contributors have been refunded for Crowdloan #"
              ++ Fmt.str crowdloan_id ++ ".");
           print_extrinsic_id response])%list.
Proof.
  intros response. unfold response. clear response.
  assert (Hnowait : negb wait_for_finalization && negb wait_for_inclusion = false)
    by (destruct Hwait as [-> | ->]; [ apply andb_false_r | reflexivity ]).
  unfold receipt, refund_extrinsic, refund_call in *.
  past_gate.
  destruct (estimated_calls _ _ >? 1); exec;
    (destruct Hgoes_ahead as [-> | Hyes];
     [ | destruct prompt; [ exec; rewrite Hyes | ] ]);
    exec; rewrite Hunlocked; exec; rewrite Hnowait; exec; rewrite Hok; exec;
    (split; [ reflexivity | ];
     match goal with
     | |- exists before, ?calls = _ =>
         first [ exists (firstn 10 calls); reflexivity
               | exists (firstn 11 calls); reflexivity
               | exists (firstn 12 calls); reflexivity ]
     end).
Qed.

End Completion.

(** X1: when the identifier does not resolve, the command prints the error
    and returns false with "Crowdloan #<id> not found." after the two reads
    alone: the limit is not read, nothing is shown or asked, the wallet is
    not unlocked. *)
Theorem missing_crowdloan_stops (env : Env) (wallet : Wallet)
    (crowdloan_id : Z) (wait_for_inclusion wait_for_finalization prompt : bool) :
  ledger_crowdloan env crowdloan_id = None ->
  let command := refund_crowdloan wallet crowdloan_id wait_for_inclusion
                   wait_for_finalization prompt in
  result env command
  = Returned (false, "Crowdloan #" ++ Fmt.str crowdloan_id ++ " not found.") /\
  trace env command
  = [get_single_crowdloan crowdloan_id; get_block_number;
     print_error ("[red]Crowdloan #" ++ Fmt.str crowdloan_id
                  ++ " not found.[/red]")].
Proof.
  intros Hnone command. unfold result, trace, command.
  rewrite (not_found_is_reported env wallet crowdloan_id wait_for_inclusion
             wait_for_finalization prompt Hnone).
  split; reflexivity.
Qed.

(** X7: more contributors never lower the estimate, and for a count that is
    not negative a larger positive limit never raises it. *)
Theorem estimated_calls_monotone (c1 c2 l1 l2 : Z) :
  c1 <= c2 ->
  estimated_calls c1 l1 <= estimated_calls c2 l1 /\
  (0 <= c1 -> 0 < l1 <= l2 ->
   estimated_calls c1 l2 <= estimated_calls c1 l1).
Proof.
  intros Hc. split.
  - destruct (Z.ltb_spec 0 l1) as [Hpos | Hnon].
    + rewrite !estimated_calls_pos_limit by assumption.
      apply Z.add_le_mono_r. apply Z.div_le_mono; lia.
    + rewrite !estimated_calls_nonpos_limit by assumption. lia.
  - intros Hc1 [Hl1 Hl2].
    rewrite !estimated_calls_pos_limit by lia.
    apply Z.add_le_mono_r. apply Z.div_le_compat_l; lia.
Qed.

Lemma estimated_calls_least_strict_witness :
  0 <= 250 /\ 0 < 100 /\
  250 < estimated_calls 250 100 * 100 /\
  (250 < 3 * 100 -> estimated_calls 250 100 <= 3).
Proof.
  assert (Hc : 0 <= 250) by lia.
  assert (Hl : 0 < 100) by lia.
  split; [ exact Hc | ].
  split; [ exact Hl | ].
  split.
  - exact (proj1 (estimated_calls_least_strict 250 100 Hc Hl)).
  - exact (proj2 (estimated_calls_least_strict 250 100 Hc Hl) 3).
Defined.

Lemma estimated_calls_monotone_witness :
  100 <= 250 /\
  estimated_calls 100 100 <= estimated_calls 250 100 /\
  estimated_calls 100 200 <= estimated_calls 100 100.
Proof.
  assert (Hc : 100 <= 250) by lia.
  split; [ exact Hc | ].
  split.
  - exact (proj1 (estimated_calls_monotone 100 250 100 200 Hc)).
  - apply (proj2 (estimated_calls_monotone 100 250 100 200 Hc)); lia.
Defined.

Lemma missing_crowdloan_stops_witness :
  let env := Scenario.ended 250 100 true Scenario.unlocked
               Scenario.accepted_receipt in
  ledger_crowdloan env 8 = None /\
  result env (refund_crowdloan Scenario.alice 8 true false true)
  = Returned (false, "Crowdloan #8 not found.").
Proof.
  intros env.
  split; [ reflexivity | ].
  exact (proj1 (missing_crowdloan_stops env Scenario.alice 8 true false true
                  eq_refl)).
Defined.

Lemma declined_refund_is_cancelled_witness :
  let c := Scenario.snapshot 100 250 false in
  let env := Scenario.ended 250 100 false Scenario.unlocked
               Scenario.accepted_receipt in
  eligible env 7 c /\
  confirm_answer env (proceed_question 7) false = false /\
  result env (refund_crowdloan Scenario.alice 7 true false true)
  = Returned (false, "Refund cancelled by user.").
Proof.
  intros c env.
  assert (Hel : eligible env 7 c)
    by (split; [ reflexivity | split; [ reflexivity | cbn; lia ] ]).
  split; [ exact Hel | ].
  split; [ reflexivity | ].
  exact (proj1 (declined_refund_is_cancelled env Scenario.alice 7 true false
                  true c Hel eq_refl eq_refl)).
Defined.

Lemma acknowledged_refund_succeeds_witness :
  let c := Scenario.snapshot 100 250 false in
  let env := Scenario.ended 250 100 true Scenario.unlocked
               Scenario.accepted_receipt in
  eligible env 7 c /\
  goes_ahead env 7 true /\
  success (unlock_result env Scenario.alice) = true /\
  is_success (receipt env Scenario.alice 7 true false) = true /\
  result env (refund_crowdloan Scenario.alice 7 true false true)
  = Returned (true, "Refund completed successfully.").
Proof.
  intros c env.
  assert (Hel : eligible env 7 c)
    by (split; [ reflexivity | split; [ reflexivity | cbn; lia ] ]).
  assert (Hgo : goes_ahead env 7 true) by (right; reflexivity).
  split; [ exact Hel | ].
  split; [ exact Hgo | ].
  do 2 (split; [ reflexivity | ]).
  exact (proj1 (acknowledged_refund_succeeds env Scenario.alice 7 true false
                  true c Hel Hgo eq_refl (or_introl eq_refl) eq_refl)).
Defined.

Lemma estimate_shown_when_limit_reached_witness :
  let c := Scenario.snapshot 100 250 false in
  let env := Scenario.ended 250 100 false Scenario.unlocked
               Scenario.accepted_receipt in
  eligible env 7 c /\
  existsb shows_estimate
    (trace env (refund_crowdloan Scenario.alice 7 true false true))
  = true /\
  existsb shows_estimate
    (trace (Scenario.ended 250 0 false Scenario.unlocked
              Scenario.accepted_receipt)
       (refund_crowdloan Scenario.alice 7 true false true))
  = false.
Proof.
  intros c env.
  assert (Hel : eligible env 7 c)
    by (split; [ reflexivity | split; [ reflexivity | cbn; lia ] ]).
  split; [ exact Hel | ].
  split.
  - exact (proj1 (estimate_shown_when_limit_reached env Scenario.alice 7 true
                    false true c Hel)).
  - refine (proj1 (estimate_shown_when_limit_reached
                     (Scenario.ended 250 0 false Scenario.unlocked
                        Scenario.accepted_receipt)
                     Scenario.alice 7 true false true c _)).
    split; [ reflexivity | split; [ reflexivity | cbn; lia ] ].
Defined.
